(** * Level 2 preset pass manager

    A shallow embedding of [level_2_pass_manager]
    (qiskit/transpiler/preset_passmanagers/level2.py) and the properties of
    the staged pass manager it assembles.

    The function reads a [PassManagerConfig], asks the stage plugin manager
    for the routing, layout, translation, optimization, scheduling and init
    stages, builds three stages with the factories of
    [preset_passmanagers.common], and returns a [StagedPassManager].  A plugin
    lookup may raise; the exception leaves the function at once. *)

From Stdlib Require Import String List ZArith Bool Lia.
Import ListNotations.
Open Scope string_scope.
Open Scope list_scope.

(** ** Python truth values *)

(** [bool(x)] for the values the function tests. *)
Class Truthy (A : Type) := truthy : A -> bool.

(** A [str] is false exactly when it is empty. *)
#[global] Instance Truthy_str : Truthy string :=
  fun s => match s with EmptyString => false | String _ _ => true end.

(** A [list] is false exactly when it is empty. *)
#[global] Instance Truthy_list {A : Type} : Truthy (list A) :=
  fun l => match l with [] => false | _ :: _ => true end.

(** [None] is false; any other value of an [Optional] has its own truth
    value. *)
#[global] Instance Truthy_Optional {A : Type} `{Truthy A} : Truthy (option A) :=
  fun o => match o with None => false | Some a => truthy a end.

(** [x or d] for an optional string [x] and a string literal [d]: the value
    of [x] when it is true, [d] otherwise. *)
Definition or_default (x : option string) (d : string) : string :=
  match x with
  | Some s => if truthy s then s else d
  | None => d
  end.

(** ** Exceptions *)

(** Modelled from the spec: the exception classes are not among the sources;
    section 7 of the spec names the two kinds of failure of an assembly. *)
Inductive TranspilerError :=
| ResolutionError (stage_name plugin_name : string)
| ConfigError (message : string).

Inductive result (A : Type) :=
| Ok (a : A)
| Raise (e : TranspilerError).
Arguments Ok {A} a.
Arguments Raise {A} e.

(** ** The classes the function only passes around *)

(** The classes [Target], [CouplingMap], [Layout], [HLSConfig] and the pass
    classes live in other modules; the function reads two attributes of them
    and tests two of them for truth. *)
Class Collaborators := {
  Pass : Type;
  Target : Type;
  CouplingMap : Type;
  Layout : Type;
  ApproximationDegree : Type;
  SynthesisPluginConfig : Type;
  HLSConfig : Type;
  (** [coupling_map.is_symmetric] *)
  is_symmetric : CouplingMap -> bool;
  (** [bool(initial_layout)], whatever the class defines *)
  Layout_bool : Layout -> bool;
  (** [target.get_non_global_operation_names(strict_direction=...)] *)
  get_non_global_operation_names : Target -> bool -> list string
}.

Section Model.
Context `{Collaborators}.

(** Modelled from the spec: the class CouplingMap is not among the sources;
    the spec branches on the connectivity graph being present, so a graph
    object is true whatever its edges (the class has neither [__bool__] nor
    [__len__]). *)
#[global] Instance Truthy_CouplingMap : Truthy CouplingMap := fun _ => true.

#[global] Instance Truthy_Layout : Truthy Layout := Layout_bool.

(** A pass manager is the sequence of its passes; [+=] appends. *)
Definition PassManager : Type := list Pass.

(** The attributes of [PassManagerConfig] the function reads. *)
Record PassManagerConfig := {
  basis_gates : option (list string);
  coupling_map : option CouplingMap;
  initial_layout : option Layout;
  init_method : option string;
  layout_method : option string;
  routing_method : option string;
  translation_method : option string;
  optimization_method : option string;
  scheduling_method : option string;
  approximation_degree : option ApproximationDegree;
  unitary_synthesis_method : string;
  unitary_synthesis_plugin_config : option SynthesisPluginConfig;
  target : option Target;
  hls_config : option HLSConfig
}.

(** The seven stages; [None] is Python's [None]. *)
Record StagedPassManager := {
  init : option PassManager;
  layout : option PassManager;
  routing : option PassManager;
  translation : option PassManager;
  pre_optimization : option PassManager;
  optimization : option PassManager;
  scheduling : option PassManager
}.

End Model.

(** ** The plugin manager and the factories of [common] *)

(** [PassManagerStagePluginManager] and the module [common] are imported by
    the function; their code is elsewhere.  A lookup reads the registry, may
    change it, and returns a pass manager or raises. *)
Class Plugins `{Collaborators} := {
  Registry : Type;
  (** [get_passmanager_stage(stage_name, plugin_name, pm_config,
      optimization_level)] on a registry *)
  plugin_lookup :
    string -> string -> PassManagerConfig -> Z -> Registry ->
    result PassManager * Registry;
  (** [common.generate_unroll_3q(target, basis_gates, approximation_degree,
      unitary_synthesis_method, unitary_synthesis_plugin_config,
      hls_config)] *)
  generate_unroll_3q :
    option Target -> option (list string) -> option ApproximationDegree ->
    string -> option SynthesisPluginConfig -> option HLSConfig -> PassManager;
  (** Modelled from the spec: [common.generate_pre_op_passmanager] is not
      among the sources; its parameters, in order, are those of section 4.3:
      target, connectivity graph, direction fixing, removal of resets in the
      zero state.  An argument a call leaves out is [None]. *)
  generate_pre_op_passmanager :
    option Target -> option CouplingMap -> option bool -> option bool ->
    PassManager;
  (** [common.generate_control_flow_options_check(layout_method=...,
      routing_method=..., translation_method=..., optimization_method=...,
      scheduling_method=..., basis_gates=..., target=...)] *)
  generate_control_flow_options_check :
    string -> string -> string -> string -> string ->
    option (list string) -> option Target -> PassManager
}.

(** ** Running the function: registry, calls and exceptions *)

Section Assembler.
Context `{Plugins}.

(** One call of [get_passmanager_stage]: the stage, the plugin name, and
    what the call gave back. *)
Record Call := {
  stage_name : string;
  plugin_name : string;
  outcome : result PassManager
}.

(** What a run can touch: the plugin registry, and the calls made so far
    (oldest first). *)
Record World := {
  registry : Registry;
  calls : list Call
}.

(** A computation reads and changes the world and returns a value or
    raises. *)
Definition M (A : Type) : Type := World -> result A * World.

Definition ret {A : Type} (a : A) : M A := fun w => (Ok a, w).

Definition bind {A B : Type} (m : M A) (f : A -> M B) : M B :=
  fun w =>
    match m w with
    | (Ok a, w') => f a w'
    | (Raise e, w') => (Raise e, w')
    end.

Notation "x <- m ;; k" := (bind m (fun x => k))
  (at level 61, m at next level, right associativity).
Notation "' pat <- m ;; k" := (bind m (fun x => match x with pat => k end))
  (at level 61, pat pattern, m at next level, right associativity).

(** [plugin_manager.get_passmanager_stage(stage_name, plugin_name,
    pass_manager_config, optimization_level=...)] *)
Definition get_passmanager_stage (stage_name plugin_name : string)
    (pass_manager_config : PassManagerConfig) (optimization_level : Z)
    : M PassManager :=
  fun w =>
    let (r, reg) :=
      plugin_lookup stage_name plugin_name pass_manager_config
                    optimization_level (registry w) in
    (r, {| registry := reg;
           calls := calls w ++ [ {| stage_name := stage_name;
                                    plugin_name := plugin_name;
                                    outcome := r |} ] |}).

(** ** level_2_pass_manager *)

Definition level_2_pass_manager (pass_manager_config : PassManagerConfig)
    : M StagedPassManager :=
  let basis_gates := basis_gates pass_manager_config in
  let coupling_map := coupling_map pass_manager_config in
  let initial_layout := initial_layout pass_manager_config in
  let init_method := init_method pass_manager_config in
  let layout_method := or_default (layout_method pass_manager_config) "default" in
  let routing_method := or_default (routing_method pass_manager_config) "sabre" in
  let translation_method :=
    or_default (translation_method pass_manager_config) "translator" in
  let optimization_method :=
    or_default (optimization_method pass_manager_config) "default" in
  let scheduling_method :=
    or_default (scheduling_method pass_manager_config) "default" in
  let approximation_degree := approximation_degree pass_manager_config in
  let unitary_synthesis_method := unitary_synthesis_method pass_manager_config in
  let unitary_synthesis_plugin_config :=
    unitary_synthesis_plugin_config pass_manager_config in
  let target := target pass_manager_config in
  let hls_config := hls_config pass_manager_config in
  (* plugin_manager = PassManagerStagePluginManager() is the registry of the
     world.  Choose routing pass *)
  routing_pm <- get_passmanager_stage "routing" routing_method pass_manager_config 2 ;;
  (* Build pass manager *)
  '(unroll_3q, layout, routing) <-
    (if truthy coupling_map || truthy initial_layout then
       let unroll_3q :=
         generate_unroll_3q target basis_gates approximation_degree
           unitary_synthesis_method unitary_synthesis_plugin_config hls_config in
       layout <- get_passmanager_stage "layout" layout_method pass_manager_config 2 ;;
       ret (Some unroll_3q, Some layout, Some routing_pm)
     else
       ret (None, None, None)) ;;
  translation <-
    get_passmanager_stage "translation" translation_method pass_manager_config 2 ;;
  let pre_optimization :=
    if match coupling_map with
       | Some cm => truthy cm && negb (is_symmetric cm)
       | None => false
       end
       || match target with
          | Some t => truthy (get_non_global_operation_names t true)
          | None => false
          end
    then generate_pre_op_passmanager target coupling_map (Some true) None
    else generate_pre_op_passmanager None None None (Some true) in
  optimization <-
    get_passmanager_stage "optimization" optimization_method pass_manager_config 2 ;;
  sched <-
    get_passmanager_stage "scheduling" scheduling_method pass_manager_config 2 ;;
  let init :=
    generate_control_flow_options_check layout_method routing_method
      translation_method optimization_method scheduling_method
      basis_gates target in
  init <-
    match init_method with
    | Some init_method =>
        stage <- get_passmanager_stage "init" init_method pass_manager_config 2 ;;
        ret (init ++ stage)
    | None =>
        match unroll_3q with
        | Some unroll_3q => ret (init ++ unroll_3q)
        | None => ret init
        end
    end ;;
  ret (Build_StagedPassManager
         (* init *) (Some init)
         (* layout *) layout
         (* routing *) routing
         (* translation *) (Some translation)
         (* pre_optimization *) (Some pre_optimization)
         (* optimization *) (Some optimization)
         (* scheduling *) (Some sched)).

(** The variant the design notes of the spec describe: routing is resolved
    inside the branch that needs a mapping, not before it.  Everything else
    is [level_2_pass_manager]. *)
Definition level_2_pass_manager_lazy (pass_manager_config : PassManagerConfig)
    : M StagedPassManager :=
  let basis_gates := basis_gates pass_manager_config in
  let coupling_map := coupling_map pass_manager_config in
  let initial_layout := initial_layout pass_manager_config in
  let init_method := init_method pass_manager_config in
  let layout_method := or_default (layout_method pass_manager_config) "default" in
  let routing_method := or_default (routing_method pass_manager_config) "sabre" in
  let translation_method :=
    or_default (translation_method pass_manager_config) "translator" in
  let optimization_method :=
    or_default (optimization_method pass_manager_config) "default" in
  let scheduling_method :=
    or_default (scheduling_method pass_manager_config) "default" in
  let approximation_degree := approximation_degree pass_manager_config in
  let unitary_synthesis_method := unitary_synthesis_method pass_manager_config in
  let unitary_synthesis_plugin_config :=
    unitary_synthesis_plugin_config pass_manager_config in
  let target := target pass_manager_config in
  let hls_config := hls_config pass_manager_config in
  '(unroll_3q, layout, routing) <-
    (if truthy coupling_map || truthy initial_layout then
       routing_pm <-
         get_passmanager_stage "routing" routing_method pass_manager_config 2 ;;
       let unroll_3q :=
         generate_unroll_3q target basis_gates approximation_degree
           unitary_synthesis_method unitary_synthesis_plugin_config hls_config in
       layout <- get_passmanager_stage "layout" layout_method pass_manager_config 2 ;;
       ret (Some unroll_3q, Some layout, Some routing_pm)
     else
       ret (None, None, None)) ;;
  translation <-
    get_passmanager_stage "translation" translation_method pass_manager_config 2 ;;
  let pre_optimization :=
    if match coupling_map with
       | Some cm => truthy cm && negb (is_symmetric cm)
       | None => false
       end
       || match target with
          | Some t => truthy (get_non_global_operation_names t true)
          | None => false
          end
    then generate_pre_op_passmanager target coupling_map (Some true) None
    else generate_pre_op_passmanager None None None (Some true) in
  optimization <-
    get_passmanager_stage "optimization" optimization_method pass_manager_config 2 ;;
  sched <-
    get_passmanager_stage "scheduling" scheduling_method pass_manager_config 2 ;;
  let init :=
    generate_control_flow_options_check layout_method routing_method
      translation_method optimization_method scheduling_method
      basis_gates target in
  init <-
    match init_method with
    | Some init_method =>
        stage <- get_passmanager_stage "init" init_method pass_manager_config 2 ;;
        ret (init ++ stage)
    | None =>
        match unroll_3q with
        | Some unroll_3q => ret (init ++ unroll_3q)
        | None => ret init
        end
    end ;;
  ret (Build_StagedPassManager
         (* init *) (Some init)
         (* layout *) layout
         (* routing *) routing
         (* translation *) (Some translation)
         (* pre_optimization *) (Some pre_optimization)
         (* optimization *) (Some optimization)
         (* scheduling *) (Some sched)).

(** A run from a registry, with no call made yet. *)
Definition run {A : Type} (m : M A) (reg : Registry) : result A * World :=
  m {| registry := reg; calls := [] |}.


(** ** The words of the specification *)

(** The test of the branch that builds layout and routing:
    [coupling_map or initial_layout]. *)
Definition needs_mapping (c : PassManagerConfig) : bool :=
  truthy (coupling_map c) || truthy (initial_layout c).

(** The control-flow validation stage [init] starts from. *)
Definition validation_stage (c : PassManagerConfig) : PassManager :=
  generate_control_flow_options_check
    (or_default (layout_method c) "default")
    (or_default (routing_method c) "sabre")
    (or_default (translation_method c) "translator")
    (or_default (optimization_method c) "default")
    (or_default (scheduling_method c) "default")
    (basis_gates c) (target c).

(** The stage that reduces operations on three or more qubits, built from
    the target, the basis gates, the approximation degree and the synthesis
    settings of the configuration. *)
Definition unroll_3q_stage (c : PassManagerConfig) : PassManager :=
  generate_unroll_3q (target c) (basis_gates c) (approximation_degree c)
    (unitary_synthesis_method c) (unitary_synthesis_plugin_config c)
    (hls_config c).

(** Section 4.1, step 4: the connectivity graph is present and not
    symmetric, or the target is present and reports, checked strictly, at
    least one operation. *)
Definition asymmetric (c : PassManagerConfig) : bool :=
  match coupling_map c with
  | Some cm => negb (is_symmetric cm)
  | None => false
  end
  || match target c with
     | Some t =>
         match get_non_global_operation_names t true with
         | [] => false
         | _ :: _ => true
         end
     | None => false
     end.

(** Section 3, the invariant of the configuration: the direction asymmetry
    comes from the target when it is present, from the connectivity graph
    otherwise. *)
Definition asymmetric_target_first (c : PassManagerConfig) : bool :=
  match target c with
  | Some t =>
      match get_non_global_operation_names t true with
      | [] => false
      | _ :: _ => true
      end
  | None =>
      match coupling_map c with
      | Some cm => negb (is_symmetric cm)
      | None => false
      end
  end.

(** Section 3: a method selection that is present is the name to look up, an
    absent one stands for the default of its stage. *)
Definition selected_name (selection : option string) (default : string)
    : string :=
  match selection with
  | Some name => name
  | None => default
  end.

(** Section 3: the stages with a documented default, each with the
    selection of the configuration and that default. *)
Definition stage_selection (c : PassManagerConfig) (stage : string)
    : option (option string * string) :=
  if String.eqb stage "layout" then Some (layout_method c, "default")
  else if String.eqb stage "routing" then Some (routing_method c, "sabre")
  else if String.eqb stage "translation" then
    Some (translation_method c, "translator")
  else if String.eqb stage "optimization" then
    Some (optimization_method c, "default")
  else if String.eqb stage "scheduling" then
    Some (scheduling_method c, "default")
  else None.

(** The name the specification has the lookup of a stage use. *)
Definition documented_name (c : PassManagerConfig) (stage : string)
    : option string :=
  match stage_selection c stage with
  | Some (selection, default) => Some (selected_name selection default)
  | None => None
  end.

(** The two ways [pre_optimization] is built. *)
Definition pre_op_direction (c : PassManagerConfig) : PassManager :=
  generate_pre_op_passmanager (target c) (coupling_map c) (Some true) None.

Definition pre_op_reset_only : PassManager :=
  generate_pre_op_passmanager None None None (Some true).

(** The registry is only read: no lookup changes it. *)
Definition read_only_registry : Prop :=
  forall stage name c level reg,
    snd (plugin_lookup stage name c level reg) = reg.

(** The stages and names of a list of calls. *)
Definition lookups (l : list Call) : list (string * string) :=
  map (fun c => (stage_name c, plugin_name c)) l.

(** ** The lookups of a run, in the order of the source *)

(** The stages the function asks the plugin manager for, with the names it
    asks for, in the order of lines 67, 82, 89, 100, 104 and 118: routing
    first, layout only in the branch of line 73, init only when an init
    method is given. *)
Definition expected_lookups (c : PassManagerConfig) : list (string * string) :=
  [("routing", or_default (routing_method c) "sabre")]
  ++ (if needs_mapping c
      then [("layout", or_default (layout_method c) "default")]
      else [])
  ++ [("translation", or_default (translation_method c) "translator");
      ("optimization", or_default (optimization_method c) "default");
      ("scheduling", or_default (scheduling_method c) "default")]
  ++ match init_method c with
     | Some name => [("init", name)]
     | None => []
     end.

(** The exception of the first lookup of a list that raises, each lookup
    made with the configuration and optimization level 2 on one registry. *)
Fixpoint first_raise (c : PassManagerConfig) (reg : Registry)
    (l : list (string * string)) : option TranspilerError :=
  match l with
  | [] => None
  | (stage, name) :: rest =>
      match fst (plugin_lookup stage name c 2 reg) with
      | Raise e => Some e
      | Ok _ => first_raise c reg rest
      end
  end.

(** The pass manager a lookup returns, [None] when it raises. *)
Definition resolved (c : PassManagerConfig) (reg : Registry)
    (stage name : string) : option PassManager :=
  match fst (plugin_lookup stage name c 2 reg) with
  | Ok pm => Some pm
  | Raise _ => None
  end.

(** The lookups of a list made one after the other from a registry, each on
    the registry the one before left, with the configuration and
    optimization level 2: what each returned, and the registry at the end. *)
Fixpoint replay (c : PassManagerConfig) (reg : Registry)
    (l : list (string * string)) : list (result PassManager) * Registry :=
  match l with
  | [] => ([], reg)
  | (stage, name) :: rest =>
      let (r, reg') := plugin_lookup stage name c 2 reg in
      let (rs, reg'') := replay c reg' rest in
      (r :: rs, reg'')
  end.

(** ** The staged pass manager as a function of configuration and registry *)


End Assembler.

(** ** A small backend to run the function on *)

Module Demo.

(** Passes are their names; a target is the list of operation names it
    reports under the strict check; a coupling map is its list of directed
    edges; a layout is the list of physical qubits. *)
Definition edge_in (a b : nat) (edges : list (nat * nat)) : bool :=
  existsb (fun e => Nat.eqb (fst e) a && Nat.eqb (snd e) b) edges.

Definition symmetric_edges (edges : list (nat * nat)) : bool :=
  forallb (fun e => edge_in (snd e) (fst e) edges) edges.

#[local] Instance collaborators : Collaborators := {|
  Pass := string;
  Target := list string;
  CouplingMap := list (nat * nat);
  Layout := list nat;
  ApproximationDegree := nat;
  SynthesisPluginConfig := unit;
  HLSConfig := unit;
  is_symmetric := symmetric_edges;
  Layout_bool := fun l => negb (Nat.eqb (length l) 0);
  get_non_global_operation_names :=
    fun t strict_direction => if strict_direction then t else []
|}.

Definition registered (stage name : string) (reg : list (string * string))
    : bool :=
  existsb (fun e => String.eqb (fst e) stage && String.eqb (snd e) name) reg.

(** The registry is the list of registered (stage, name) pairs; the stage a
    plugin builds is one pass carrying both. *)
#[local] Instance plugins : Plugins := {|
  Registry := list (string * string);
  plugin_lookup := fun stage name _ _ reg =>
    if registered stage name reg
    then (Ok [(stage ++ ":" ++ name)%string], reg)
    else (Raise (ResolutionError stage name), reg);
  generate_unroll_3q := fun _ _ _ _ _ _ => ["unroll_3q"];
  generate_pre_op_passmanager := fun _ _ fix_direction remove_reset_in_zero =>
    match fix_direction with Some true => ["gate_direction"] | _ => [] end
    ++ match remove_reset_in_zero with
       | Some true => ["remove_reset_in_zero_state"]
       | _ => []
       end;
  generate_control_flow_options_check := fun _ _ _ _ _ _ _ =>
    ["control_flow_check"]
|}.

(** The plugins a plain installation registers, and one init plugin. *)
Definition builtin : Registry :=
  [ ("routing", "sabre"); ("layout", "default");
    ("translation", "translator"); ("optimization", "default");
    ("scheduling", "default"); ("init", "custom") ].

(** A configuration of the demo backend: coupling map, init method, routing
    method and target as given, every other method at its default. *)
Definition config (cm : option (list (nat * nat)))
    (init_name routing_name : option string) (t : option (list string))
    : PassManagerConfig := {|
  basis_gates := Some ["cx"; "u"];
  coupling_map := cm;
  initial_layout := None;
  init_method := init_name;
  layout_method := None;
  routing_method := routing_name;
  translation_method := None;
  optimization_method := None;
  scheduling_method := None;
  approximation_degree := None;
  unitary_synthesis_method := "default";
  unitary_synthesis_plugin_config := None;
  target := t;
  hls_config := None
|}.

Definition ring5 : list (nat * nat) := [(0, 1); (1, 2); (2, 3); (3, 4); (4, 0)].

Definition ring5_both_ways : list (nat * nat) :=
  ring5 ++ map (fun e => (snd e, fst e)) ring5.

(** Scenario A: no connectivity, no placement, every method at its
    default. *)
Definition scenario_A : PassManagerConfig := config None None None None.

(** Scenario B: a ring of five qubits, one direction only. *)
Definition scenario_B : PassManagerConfig :=
  config (Some ring5) None None None.

(** Scenario C: scenario B with the init plugin "custom". *)
Definition scenario_C : PassManagerConfig :=
  config (Some ring5) (Some "custom") None None.

(** Scenario B with a target that reports no operation, and the same with
    every edge of the ring in both directions. *)
Definition directed_with_target : PassManagerConfig :=
  config (Some ring5) None None (Some []).

Definition symmetric_with_target : PassManagerConfig :=
  config (Some ring5_both_ways) None None (Some []).

(** Scenario A with the empty string as routing method, and with a routing
    method nobody registered. *)
Definition empty_routing : PassManagerConfig :=
  config None None (Some "") None.

Definition unknown_routing : PassManagerConfig :=
  config None None (Some "nope") None.

(** The world before the first call. *)
Definition start : World := {| registry := builtin; calls := [] |}.

(** What the function returns in scenarios A, B and C. *)
Definition staged_A : StagedPassManager := {|
  init := Some ["control_flow_check"];
  layout := None;
  routing := None;
  translation := Some ["translation:translator"];
  pre_optimization := Some ["remove_reset_in_zero_state"];
  optimization := Some ["optimization:default"];
  scheduling := Some ["scheduling:default"]
|}.

Definition staged_B : StagedPassManager := {|
  init := Some ["control_flow_check"; "unroll_3q"];
  layout := Some ["layout:default"];
  routing := Some ["routing:sabre"];
  translation := Some ["translation:translator"];
  pre_optimization := Some ["gate_direction"];
  optimization := Some ["optimization:default"];
  scheduling := Some ["scheduling:default"]
|}.

Definition staged_C : StagedPassManager := {|
  init := Some ["control_flow_check"; "init:custom"];
  layout := Some ["layout:default"];
  routing := Some ["routing:sabre"];
  translation := Some ["translation:translator"];
  pre_optimization := Some ["gate_direction"];
  optimization := Some ["optimization:default"];
  scheduling := Some ["scheduling:default"]
|}.

(** What it returns for [symmetric_with_target]. *)
Definition staged_symmetric : StagedPassManager := {|
  init := Some ["control_flow_check"; "unroll_3q"];
  layout := Some ["layout:default"];
  routing := Some ["routing:sabre"];
  translation := Some ["translation:translator"];
  pre_optimization := Some ["remove_reset_in_zero_state"];
  optimization := Some ["optimization:default"];
  scheduling := Some ["scheduling:default"]
|}.

(** The routing lookups of the two variations of scenario A. *)
Definition routing_sabre : Call := {|
  stage_name := "routing";
  plugin_name := "sabre";
  outcome := Ok ["routing:sabre"]
|}.

Definition routing_nope : Call := {|
  stage_name := "routing";
  plugin_name := "nope";
  outcome := Raise (ResolutionError "routing" "nope")
|}.

(** A configuration with an initial layout and no coupling map, every
    method at its default. *)
Definition config_with_layout (l : list nat) : PassManagerConfig := {|
  basis_gates := Some ["cx"; "u"];
  coupling_map := None;
  initial_layout := Some l;
  init_method := None;
  layout_method := None;
  routing_method := None;
  translation_method := None;
  optimization_method := None;
  scheduling_method := None;
  approximation_degree := None;
  unitary_synthesis_method := "default";
  unitary_synthesis_plugin_config := None;
  target := None;
  hls_config := None
|}.

(** A layout of three qubits, and the layout of no qubit. *)
Definition three_qubits_laid_out : PassManagerConfig :=
  config_with_layout [2; 0; 1].

Definition empty_layout : PassManagerConfig := config_with_layout [].

(** What the function returns for a layout of three qubits. *)
Definition staged_layout : StagedPassManager := {|
  init := Some ["control_flow_check"; "unroll_3q"];
  layout := Some ["layout:default"];
  routing := Some ["routing:sabre"];
  translation := Some ["translation:translator"];
  pre_optimization := Some ["remove_reset_in_zero_state"];
  optimization := Some ["optimization:default"];
  scheduling := Some ["scheduling:default"]
|}.

(** Scenario B with a translation method nobody registered. *)
Definition unknown_translation : PassManagerConfig := {|
  basis_gates := Some ["cx"; "u"];
  coupling_map := Some ring5;
  initial_layout := None;
  init_method := None;
  layout_method := None;
  routing_method := None;
  translation_method := Some "nope";
  optimization_method := None;
  scheduling_method := None;
  approximation_degree := None;
  unitary_synthesis_method := "default";
  unitary_synthesis_plugin_config := None;
  target := None;
  hls_config := None
|}.

(** The lookups made before the translation lookup in scenario B. *)
Definition layout_default : Call := {|
  stage_name := "layout";
  plugin_name := "default";
  outcome := Ok ["layout:default"]
|}.

Definition translation_nope : Call := {|
  stage_name := "translation";
  plugin_name := "nope";
  outcome := Raise (ResolutionError "translation" "nope")
|}.

End Demo.


(** * Properties *)

Section Properties.
Context `{Plugins}.

(** ** Reasoning about a run *)

Ltac unfold_run :=
  unfold run, level_2_pass_manager, level_2_pass_manager_lazy,
    bind, ret, get_passmanager_stage in *;
  cbn [registry calls fst snd] in *.

(** Split on the result of the next lookup the run performs. *)
Ltac next_lookup :=
  match goal with
  | H : context [plugin_lookup ?k ?n ?c ?l ?s] |- _ =>
      lazymatch type of H with
      | plugin_lookup _ _ _ _ _ = _ => fail
      | _ =>
          let E := fresh "Elookup" in
          destruct (plugin_lookup k n c l s) as [[?|?] ?] eqn:E;
          cbn [registry calls fst snd] in *
      end
  | |- context [plugin_lookup ?k ?n ?c ?l ?s] =>
      let E := fresh "Elookup" in
      destruct (plugin_lookup k n c l s) as [[?|?] ?] eqn:E;
      cbn [registry calls fst snd] in *
  end.

Ltac lookups_done := repeat next_lookup.

(** Every path of a run: the two branches of the mapping test, an init
    method given or not, and each lookup returning or raising. *)
Ltac all_paths c :=
  unfold_run;
  let Emap := fresh "Emap" in
  destruct (needs_mapping c) eqn:Emap; unfold needs_mapping in Emap;
  rewrite Emap in *;
  destruct (init_method c) eqn:?Einit; lookups_done.

(** The calls of a run, one at a time. *)
Ltac each_call Hin :=
  cbn [calls app In snd] in Hin;
  repeat match goal with
    | Hor : _ \/ _ |- _ => destruct Hor as [<- | Hor]
    | Hf : False |- _ => destruct Hf
    end.

(** On a registry that is only read, a lookup leaves the registry it was
    given. *)
Ltac registry_kept Hro :=
  repeat match goal with
    | E : plugin_lookup ?k ?n ?c ?l ?s = (_, ?s') |- _ =>
        let Hs := fresh "Hs" in
        pose proof (Hro k n c l s) as Hs; rewrite E in Hs;
        cbn [snd] in Hs; subst s'; revert E
    end;
  intros.

(** Rewrite with the lookups already split on. *)
Ltac lookups_known :=
  repeat match goal with
    | E : plugin_lookup _ _ _ _ _ = _ |- _ => rewrite E; revert E
    end;
  intros.

(** ** What the function computes *)

(** The test of line 93 is the asymmetry the specification words. *)
Lemma direction_test_asymmetric (c : PassManagerConfig) :
  (match coupling_map c with
   | Some cm => truthy cm && negb (is_symmetric cm)
   | None => false
   end
   || match target c with
      | Some t => truthy (get_non_global_operation_names t true)
      | None => false
      end) = asymmetric c.
Proof.
  unfold asymmetric.
  destruct (coupling_map c); destruct (target c); reflexivity.
Qed.

(** What a run returns for [pre_optimization]. *)
Lemma pre_optimization_of_run :
  forall (c : PassManagerConfig) (w w' : World) (p : StagedPassManager),
    level_2_pass_manager c w = (Ok p, w') ->
    pre_optimization p =
      Some (if asymmetric c then pre_op_direction c else pre_op_reset_only).
Proof.
  intros c w w' p Hrun.
  unfold_run. rewrite direction_test_asymmetric in Hrun.
  all_paths c; try discriminate.
  all: injection Hrun as <- _; reflexivity.
Qed.



(** ** The claims *)

(** C1: with no coupling map and no initial layout, the staged pass manager
    the function returns has [None] as its layout and as its routing
    stage. *)
Theorem no_mapping_no_layout_no_routing :
  forall (c : PassManagerConfig) (w w' : World) (p : StagedPassManager),
    coupling_map c = None ->
    initial_layout c = None ->
    level_2_pass_manager c w = (Ok p, w') ->
    layout p = None /\ routing p = None.
Proof.
  intros c w w' p Hcm Hil Hrun.
  assert (Hno : needs_mapping c = false).
  { unfold needs_mapping. rewrite Hcm, Hil. reflexivity. }
  all_paths c; try discriminate.
  all: injection Hrun as <- _; split; reflexivity.
Qed.

(** C2: the pre-optimization stage is built with direction fixing, from the
    target and the coupling map, when the configuration is asymmetric (the
    coupling map is present and not symmetric, or the target is present and
    reports an operation under the strict check); otherwise it is built with
    the removal of resets in the zero state alone, and neither target nor
    coupling map. *)
Theorem pre_optimization_by_asymmetry :
  forall (c : PassManagerConfig) (w w' : World) (p : StagedPassManager),
    level_2_pass_manager c w = (Ok p, w') ->
    (asymmetric c = true ->
     pre_optimization p =
       Some (generate_pre_op_passmanager (target c) (coupling_map c)
               (Some true) None))
    /\ (asymmetric c = false ->
        pre_optimization p =
          Some (generate_pre_op_passmanager None None None (Some true))).
Proof.
  intros c w w' p Hrun.
  rewrite (pre_optimization_of_run c w w' p Hrun).
  split; intros ->; reflexivity.
Qed.

(** C3: with a coupling map, the staged pass manager the function returns
    has a layout and a routing stage; when no init method is given as well,
    its init stage is the control-flow validation stage followed by the
    stage reducing operations on three or more qubits, built from the target,
    basis gates, approximation degree and synthesis settings of the
    configuration. *)
Theorem coupling_map_gives_layout_routing_init :
  forall (c : PassManagerConfig) (cm : CouplingMap) (w w' : World)
         (p : StagedPassManager),
    coupling_map c = Some cm ->
    level_2_pass_manager c w = (Ok p, w') ->
    (exists l r, layout p = Some l /\ routing p = Some r)
    /\ (init_method c = None ->
        init p = Some (validation_stage c ++ unroll_3q_stage c)).
Proof.
  intros c cm w w' p Hcm Hrun.
  assert (Hyes : needs_mapping c = true).
  { unfold needs_mapping. rewrite Hcm. reflexivity. }
  all_paths c; try discriminate.
  all: injection Hrun as <- _; cbn [layout routing init].
  all: split; [eauto | intros; try discriminate; reflexivity].
Qed.

(** C4: with an init method given, the init stage of the staged pass manager
    the function returns is the control-flow validation stage followed by
    the stage the plugin manager resolves for ("init", that method), whatever
    the coupling map and the initial layout; that lookup is the last one of
    the run, and on a registry that is only read it is the lookup on the
    registry the run started from. *)
Theorem init_method_gives_plugin_init :
  forall (c : PassManagerConfig) (m : string) (w w' : World)
         (p : StagedPassManager),
    init_method c = Some m ->
    level_2_pass_manager c w = (Ok p, w') ->
    exists (stage : PassManager) (reg : Registry),
      plugin_lookup "init" m c 2 reg = (Ok stage, registry w')
      /\ init p = Some (validation_stage c ++ stage)
      /\ (read_only_registry -> reg = registry w).
Proof.
  intros c m w w' p Him Hrun.
  all_paths c; try discriminate.
  all: injection Him as ->.
  all: injection Hrun as <- <-; cbn [init registry].
  all: eexists; eexists; split; [eassumption|].
  all: split; [reflexivity|].
  all: intros Hro; registry_kept Hro; reflexivity.
Qed.

(** C5, as the function has it: with a target present, a coupling map that
    is present and not symmetric turns direction fixing on whatever the
    target reports; the target alone decides only when the coupling map is
    absent or symmetric. *)
Theorem direction_fixing_with_target :
  forall (c : PassManagerConfig) (t : Target) (w w' : World)
         (p : StagedPassManager),
    target c = Some t ->
    level_2_pass_manager c w = (Ok p, w') ->
    (forall cm, coupling_map c = Some cm -> is_symmetric cm = false ->
       pre_optimization p = Some (pre_op_direction c))
    /\ ((coupling_map c = None \/
         exists cm, coupling_map c = Some cm /\ is_symmetric cm = true) ->
        pre_optimization p =
          Some (if asymmetric_target_first c
                then pre_op_direction c else pre_op_reset_only)).
Proof.
  intros c t w w' p Ht Hrun.
  rewrite (pre_optimization_of_run c w w' p Hrun).
  unfold asymmetric, asymmetric_target_first. rewrite Ht.
  split.
  - intros cm -> ->. reflexivity.
  - intros [-> | [cm [-> ->]]]; reflexivity.
Qed.

(** C6: when a lookup of a run raises, the run raises that exception and
    returns no staged pass manager; in particular for the exception of an
    unregistered (stage, name) pair. *)
Theorem failed_lookup_fails_assembly :
  forall (c : PassManagerConfig) (reg : Registry)
         (r : result StagedPassManager) (w' : World) (call : Call)
         (e : TranspilerError),
    run (level_2_pass_manager c) reg = (r, w') ->
    In call (calls w') ->
    outcome call = Raise e ->
    r = Raise e.
Proof.
  intros c reg r w' call e Hrun Hin Hout.
  all_paths c.
  all: injection Hrun as <- <-; each_call Hin.
  all: cbn [outcome] in Hout; try discriminate; congruence.
Qed.

(** C7, as the function has it: the lookup of a stage with a documented
    default uses that default when the selection is absent or the empty
    string, and the selection itself when it is a non-empty string; the
    lookup of the init stage uses the init method as given. *)
Theorem lookup_uses_selection_or_default :
  forall (c : PassManagerConfig) (reg : Registry) (call : Call),
    In call (calls (snd (run (level_2_pass_manager c) reg))) ->
    (forall selection default,
       stage_selection c (stage_name call) = Some (selection, default) ->
       (selection = None -> plugin_name call = default)
       /\ (selection = Some "" -> plugin_name call = default)
       /\ (forall name, selection = Some name -> name <> "" ->
             plugin_name call = name))
    /\ (stage_name call = "init" -> init_method c = Some (plugin_name call)).
Proof.
  intros c reg call Hin.
  split.
  - intros selection default Hsel.
    assert (Hname : plugin_name call = or_default selection default).
    { all_paths c.
      all: each_call Hin.
      all: cbn in Hsel; try discriminate.
      all: injection Hsel as <- <-; reflexivity. }
    rewrite Hname. repeat split.
    + intros ->. reflexivity.
    + intros ->. reflexivity.
    + intros name -> Hne. destruct name; [congruence | reflexivity].
  - all_paths c.
    all: each_call Hin.
    all: cbn [stage_name plugin_name]; intros Hstage.
    all: try discriminate; reflexivity.
Qed.






(** C10: in every staged pass manager the function returns, the init,
    translation, pre-optimization, optimization and scheduling stages are
    present; layout and routing are absent together or present together. *)
Theorem five_stages_always_present :
  forall (c : PassManagerConfig) (w w' : World) (p : StagedPassManager),
    level_2_pass_manager c w = (Ok p, w') ->
    init p <> None /\ translation p <> None /\ pre_optimization p <> None
    /\ optimization p <> None /\ scheduling p <> None
    /\ (layout p = None <-> routing p = None).
Proof.
  intros c w w' p Hrun.
  all_paths c; try discriminate.
  all: injection Hrun as <- _;
    cbn [init layout routing translation pre_optimization optimization
         scheduling].
  all: repeat split; try discriminate; auto.
Qed.

(** ** Further properties of the function *)

(** A default that is not empty gives a name that is not empty. *)
Lemma or_default_not_empty (x : option string) (d : string) :
  d <> "" -> or_default x d <> "".
Proof.
  intros Hd. unfold or_default.
  destruct x as [[|a s]|]; cbn; try assumption. discriminate.
Qed.

(** X1: a run that returns has made the lookups of [expected_lookups], in
    that order and no other, and each of them returned. *)
Theorem lookups_in_source_order :
  forall (c : PassManagerConfig) (reg : Registry) (p : StagedPassManager)
         (w' : World),
    run (level_2_pass_manager c) reg = (Ok p, w') ->
    lookups (calls w') = expected_lookups c
    /\ (forall call, In call (calls w') -> exists pm, outcome call = Ok pm).
Proof.
  intros c reg p w' Hrun.
  unfold expected_lookups, needs_mapping.
  all_paths c; try discriminate.
  all: injection Hrun as _ <-; cbn [calls app lookups map].
  all: split; [reflexivity|].
  all: intros call Hin; each_call Hin; cbn [outcome]; eauto.
Qed.

(** X2: a run that raises has stopped at the lookup that raised: that lookup
    is the last call, every call before it returned, and the calls made are
    a beginning of [expected_lookups]. *)
Theorem failure_stops_the_run :
  forall (c : PassManagerConfig) (reg : Registry) (e : TranspilerError)
         (w' : World),
    run (level_2_pass_manager c) reg = (Raise e, w') ->
    exists (before : list Call) (last : Call) (rest : list (string * string)),
      calls w' = before ++ [last]
      /\ outcome last = Raise e
      /\ (forall call, In call before -> exists pm, outcome call = Ok pm)
      /\ expected_lookups c = lookups (calls w') ++ rest.
Proof.
  intros c reg e w' Hrun.
  unfold expected_lookups, needs_mapping.
  all_paths c; try discriminate.
  all: injection Hrun as <- <-; cbn [calls app].
  all: match goal with
       | |- exists _ _ _, ?made = _ /\ _ =>
           match made with
           | ?first :: _ =>
               exists (List.removelast made), (List.last made first)
           end
       end.
  all: cbn [List.removelast List.last]; eexists.
  all: split; [reflexivity|].
  all: split; [reflexivity|].
  all: split; [intros call Hin; each_call Hin; cbn [outcome]; eauto|].
  all: cbn [app lookups map stage_name plugin_name]; reflexivity.
Qed.

(** X3: on a registry that is only read, the function returns exactly when
    every lookup of [expected_lookups] resolves on the registry it starts
    from; otherwise it raises the exception of the first of them that
    raises, in the order routing, layout, translation, optimization,
    scheduling, init. *)
Theorem assembly_raises_first_failure :
  read_only_registry ->
  forall (c : PassManagerConfig) (reg : Registry),
    match first_raise c reg (expected_lookups c) with
    | Some e => fst (run (level_2_pass_manager c) reg) = Raise e
    | None => exists p, fst (run (level_2_pass_manager c) reg) = Ok p
    end.
Proof.
  intros Hro c reg.
  unfold expected_lookups, needs_mapping.
  all_paths c; registry_kept Hro.
  all: cbn [first_raise app]; lookups_known; cbn [fst first_raise].
  all: eauto.
Qed.

(** X4: the staged pass manager the function returns has a layout and a
    routing stage exactly when [coupling_map or initial_layout] is true. *)
Theorem layout_and_routing_iff_mapping :
  forall (c : PassManagerConfig) (w w' : World) (p : StagedPassManager),
    level_2_pass_manager c w = (Ok p, w') ->
    (needs_mapping c = true ->
     exists l r, layout p = Some l /\ routing p = Some r)
    /\ (needs_mapping c = false -> layout p = None /\ routing p = None).
Proof.
  intros c w w' p Hrun.
  all_paths c; try discriminate.
  all: injection Hrun as <- _; cbn [layout routing].
  all: split; intros Hm; try discriminate; eauto.
Qed.

(** X5: an initial layout that Python counts as false, with no coupling map,
    is treated as no layout at all: neither layout nor routing is built and
    init is the validation stage alone. *)
Theorem false_layout_is_no_layout :
  forall (c : PassManagerConfig) (l : Layout) (w w' : World)
         (p : StagedPassManager),
    coupling_map c = None ->
    initial_layout c = Some l ->
    Layout_bool l = false ->
    init_method c = None ->
    level_2_pass_manager c w = (Ok p, w') ->
    layout p = None /\ routing p = None /\ init p = Some (validation_stage c).
Proof.
  intros c l w w' p Hcm Hil Hl Him Hrun.
  assert (Hno : needs_mapping c = false).
  { unfold needs_mapping. rewrite Hcm, Hil. exact Hl. }
  all_paths c; try discriminate.
  all: injection Hrun as <- _; repeat split; reflexivity.
Qed.

(** X6: with no init method, the init stage is the validation stage followed
    by the stage reducing operations on three or more qubits when
    [coupling_map or initial_layout] is true, and the validation stage alone
    otherwise. *)
Theorem init_without_init_method :
  forall (c : PassManagerConfig) (w w' : World) (p : StagedPassManager),
    init_method c = None ->
    level_2_pass_manager c w = (Ok p, w') ->
    init p =
      Some (validation_stage c
            ++ (if needs_mapping c then unroll_3q_stage c else [])).
Proof.
  intros c w w' p Him Hrun.
  assert (Hm : needs_mapping c = needs_mapping c) by reflexivity.
  revert Hm. generalize (needs_mapping c) at 1 3. intros b Hm.
  all_paths c; try discriminate.
  all: injection Hrun as <- _; cbn [init]; subst b.
  - reflexivity.
  - rewrite app_nil_r. reflexivity.
Qed.

(** X7: on a registry that is only read, the translation, optimization and
    scheduling stages of the staged pass manager are the pass managers the
    plugin manager returns for the stage, the chosen name, the configuration
    and optimization level 2, as they are; so are layout and routing when
    [coupling_map or initial_layout] is true. *)
Theorem stages_are_plugin_results :
  read_only_registry ->
  forall (c : PassManagerConfig) (reg : Registry) (p : StagedPassManager)
         (w' : World),
    run (level_2_pass_manager c) reg = (Ok p, w') ->
    translation p =
      resolved c reg "translation"
        (or_default (translation_method c) "translator")
    /\ optimization p =
         resolved c reg "optimization"
           (or_default (optimization_method c) "default")
    /\ scheduling p =
         resolved c reg "scheduling"
           (or_default (scheduling_method c) "default")
    /\ (needs_mapping c = true ->
        layout p =
          resolved c reg "layout" (or_default (layout_method c) "default")
        /\ routing p =
             resolved c reg "routing"
               (or_default (routing_method c) "sabre")).
Proof.
  intros Hro c reg p w' Hrun.
  all_paths c; try discriminate.
  all: registry_kept Hro.
  all: injection Hrun as <- _;
    cbn [translation optimization scheduling layout routing].
  all: unfold resolved; lookups_known; cbn [fst].
  all: split; [reflexivity | split; [reflexivity | split; [reflexivity|]]].
  all: intros Hm; try discriminate; split; reflexivity.
Qed.

(** X8: a stage with a default is never looked up under the empty name: only
    the init lookup can carry an empty name. *)
Theorem defaulted_lookup_never_empty :
  forall (c : PassManagerConfig) (reg : Registry) (call : Call),
    In call (calls (snd (run (level_2_pass_manager c) reg))) ->
    stage_name call <> "init" ->
    plugin_name call <> "".
Proof.
  intros c reg call Hin Hstage.
  all_paths c.
  all: each_call Hin.
  all: cbn [stage_name plugin_name] in *.
  all: try (apply or_default_not_empty; discriminate).
  all: exfalso; apply Hstage; reflexivity.
Qed.

(** X9: when [coupling_map or initial_layout] is false the layout method is
    never looked up, while routing is still looked up first, and a routing
    lookup that raises fails the run although no routing stage would be
    built. *)
Theorem unused_routing_is_still_resolved :
  forall (c : PassManagerConfig) (reg : Registry)
         (r : result StagedPassManager) (w' : World),
    needs_mapping c = false ->
    run (level_2_pass_manager c) reg = (r, w') ->
    (forall call, In call (calls w') -> stage_name call <> "layout")
    /\ exists (first : Call) (rest : list Call),
         calls w' = first :: rest
         /\ stage_name first = "routing"
         /\ plugin_name first = or_default (routing_method c) "sabre"
         /\ (forall e, outcome first = Raise e -> r = Raise e /\ rest = []).
Proof.
  intros c reg r w' Hno Hrun.
  all_paths c; try discriminate.
  all: injection Hrun as <- <-; cbn [calls app].
  all: split;
    [intros call Hin; each_call Hin; cbn [stage_name]; discriminate|].
  all: eexists; eexists; split; [reflexivity|].
  all: cbn [stage_name plugin_name outcome].
  all: split; [reflexivity | split; [reflexivity|]].
  all: intros e' He; try discriminate.
  all: injection He as <-; split; reflexivity.
Qed.

(** X10: whether the registry is only read or not, every lookup of a run is
    made with the configuration the function was given and optimization
    level 2, on the registry the lookup before it left; the run ends with
    the registry its last lookup left, also when that lookup raised. *)
Theorem run_threads_the_registry :
  forall (c : PassManagerConfig) (reg : Registry),
    replay c reg (lookups (calls (snd (run (level_2_pass_manager c) reg)))) =
      (map outcome (calls (snd (run (level_2_pass_manager c) reg))),
       registry (snd (run (level_2_pass_manager c) reg))).
Proof.
  intros c reg.
  all_paths c.
  all: do 7 (cbn [replay lookups map calls registry snd app stage_name
                  plugin_name outcome];
             lookups_known).
  all: reflexivity.
Qed.

End Properties.

(** * The scenarios of the specification, run *)

Section Scenarios.
#[local] Existing Instance Demo.collaborators.
#[local] Existing Instance Demo.plugins.

(** No lookup of the demo registry changes it. *)
Lemma demo_registry_read_only : read_only_registry.
Proof.
  intros stage name c level reg. cbn.
  destruct (Demo.registered stage name reg); reflexivity.
Qed.

(** Scenario A has neither layout nor routing. *)
Lemma no_mapping_no_layout_no_routing_scenario_A :
  fst (level_2_pass_manager Demo.scenario_A Demo.start) = Ok Demo.staged_A
  /\ layout Demo.staged_A = None /\ routing Demo.staged_A = None.
Proof.
  split; [reflexivity|].
  apply (no_mapping_no_layout_no_routing Demo.scenario_A Demo.start
           (snd (level_2_pass_manager Demo.scenario_A Demo.start))
           Demo.staged_A); reflexivity.
Defined.

(** Scenario B, a directed ring, fixes directions. *)
Lemma pre_optimization_by_asymmetry_scenario_B :
  asymmetric Demo.scenario_B = true
  /\ pre_optimization Demo.staged_B = Some ["gate_direction"].
Proof.
  split; [reflexivity|].
  apply (proj1 (pre_optimization_by_asymmetry Demo.scenario_B Demo.start
                  (snd (level_2_pass_manager Demo.scenario_B Demo.start))
                  Demo.staged_B eq_refl)).
  reflexivity.
Defined.

(** Scenario B has layout, routing and the reduction stage in init. *)
Lemma coupling_map_gives_layout_routing_init_scenario_B :
  (exists l r, layout Demo.staged_B = Some l /\ routing Demo.staged_B = Some r)
  /\ (init_method Demo.scenario_B = None ->
      init Demo.staged_B = Some ["control_flow_check"; "unroll_3q"]).
Proof.
  apply (coupling_map_gives_layout_routing_init Demo.scenario_B Demo.ring5
           Demo.start
           (snd (level_2_pass_manager Demo.scenario_B Demo.start))
           Demo.staged_B); reflexivity.
Defined.

(** Scenario C has the stage of the plugin "custom" in init. *)
Lemma init_method_gives_plugin_init_scenario_C :
  exists (stage : PassManager) (reg : Registry),
    plugin_lookup "init" "custom" Demo.scenario_C 2 reg =
      (Ok stage, Demo.builtin)
    /\ init Demo.staged_C = Some (validation_stage Demo.scenario_C ++ stage)
    /\ (read_only_registry -> reg = Demo.builtin).
Proof.
  apply (init_method_gives_plugin_init Demo.scenario_C "custom" Demo.start
           (snd (level_2_pass_manager Demo.scenario_C Demo.start))
           Demo.staged_C); reflexivity.
Defined.

(** C5, a counterexample: the target is present and reports nothing, yet the
    directed ring turns direction fixing on, and the same target with the
    ring in both directions does not. *)
Lemma coupling_map_decides_despite_target :
  target Demo.directed_with_target = Some []
  /\ target Demo.symmetric_with_target = Some []
  /\ asymmetric_target_first Demo.directed_with_target = false
  /\ fst (level_2_pass_manager Demo.directed_with_target Demo.start) =
       Ok Demo.staged_B
  /\ pre_optimization Demo.staged_B = Some ["gate_direction"]
  /\ pre_optimization Demo.staged_B <> Some pre_op_reset_only
  /\ fst (level_2_pass_manager Demo.symmetric_with_target Demo.start) =
       Ok Demo.staged_symmetric
  /\ pre_optimization Demo.staged_symmetric = Some pre_op_reset_only.
Proof.
  repeat split; try reflexivity. discriminate.
Qed.

(** The directed ring with a silent target. *)
Lemma direction_fixing_with_target_directed_ring :
  (forall cm, coupling_map Demo.directed_with_target = Some cm ->
     is_symmetric cm = false ->
     pre_optimization Demo.staged_B =
       Some (pre_op_direction Demo.directed_with_target))
  /\ ((coupling_map Demo.directed_with_target = None \/
       exists cm, coupling_map Demo.directed_with_target = Some cm /\
                  is_symmetric cm = true) ->
      pre_optimization Demo.staged_B =
        Some (if asymmetric_target_first Demo.directed_with_target
              then pre_op_direction Demo.directed_with_target
              else pre_op_reset_only)).
Proof.
  apply (direction_fixing_with_target Demo.directed_with_target []
           Demo.start
           (snd (level_2_pass_manager Demo.directed_with_target Demo.start))
           Demo.staged_B); reflexivity.
Defined.

(** An unregistered routing method fails the assembly. *)
Lemma failed_lookup_fails_assembly_unknown_routing :
  fst (run (level_2_pass_manager Demo.unknown_routing) Demo.builtin) =
    Raise (ResolutionError "routing" "nope").
Proof.
  apply (failed_lookup_fails_assembly Demo.unknown_routing Demo.builtin
           (fst (run (level_2_pass_manager Demo.unknown_routing) Demo.builtin))
           (snd (run (level_2_pass_manager Demo.unknown_routing) Demo.builtin))
           Demo.routing_nope (ResolutionError "routing" "nope")).
  - reflexivity.
  - simpl. left. reflexivity.
  - reflexivity.
Defined.

(** C7, a counterexample: the routing method is present and is the empty
    string, and the lookup uses "sabre". *)
Lemma empty_selection_looks_up_default :
  routing_method Demo.empty_routing = Some ""
  /\ documented_name Demo.empty_routing "routing" = Some ""
  /\ lookups
       (calls (snd (run (level_2_pass_manager Demo.empty_routing)
                      Demo.builtin))) =
     [ ("routing", "sabre"); ("translation", "translator");
       ("optimization", "default"); ("scheduling", "default") ].
Proof.
  repeat split; reflexivity.
Qed.

(** The empty routing method, looked up. *)
Lemma lookup_uses_selection_or_default_empty_routing :
  (forall selection default,
     stage_selection Demo.empty_routing "routing" =
       Some (selection, default) ->
     (selection = None -> plugin_name Demo.routing_sabre = default)
     /\ (selection = Some "" -> plugin_name Demo.routing_sabre = default)
     /\ (forall name, selection = Some name -> name <> "" ->
           plugin_name Demo.routing_sabre = name))
  /\ (stage_name Demo.routing_sabre = "init" ->
      init_method Demo.empty_routing =
        Some (plugin_name Demo.routing_sabre)).
Proof.
  apply (lookup_uses_selection_or_default Demo.empty_routing Demo.builtin
           Demo.routing_sabre).
  simpl. left. reflexivity.
Defined.




(** Scenario A has the five stages. *)
Lemma five_stages_always_present_scenario_A :
  init Demo.staged_A <> None /\ translation Demo.staged_A <> None
  /\ pre_optimization Demo.staged_A <> None
  /\ optimization Demo.staged_A <> None
  /\ scheduling Demo.staged_A <> None
  /\ (layout Demo.staged_A = None <-> routing Demo.staged_A = None).
Proof.
  apply (five_stages_always_present Demo.scenario_A Demo.start
           (snd (level_2_pass_manager Demo.scenario_A Demo.start))
           Demo.staged_A).
  reflexivity.
Defined.

(** ** The further properties, run *)

(** Scenario B makes its five lookups in the order of the source. *)
Lemma lookups_in_source_order_scenario_B :
  lookups (calls (snd (run (level_2_pass_manager Demo.scenario_B)
                         Demo.builtin))) =
    [ ("routing", "sabre"); ("layout", "default");
      ("translation", "translator"); ("optimization", "default");
      ("scheduling", "default") ]
  /\ (forall call,
        In call (calls (snd (run (level_2_pass_manager Demo.scenario_B)
                               Demo.builtin))) ->
        exists pm, outcome call = Ok pm).
Proof.
  apply (lookups_in_source_order Demo.scenario_B Demo.builtin Demo.staged_B
           (snd (run (level_2_pass_manager Demo.scenario_B) Demo.builtin))).
  reflexivity.
Defined.

(** An unregistered translation method stops the run at its third lookup. *)
Lemma failure_stops_the_run_unknown_translation :
  exists (before : list Call) (last : Call) (rest : list (string * string)),
    calls (snd (run (level_2_pass_manager Demo.unknown_translation)
                  Demo.builtin)) = before ++ [last]
    /\ outcome last = Raise (ResolutionError "translation" "nope")
    /\ (forall call, In call before -> exists pm, outcome call = Ok pm)
    /\ expected_lookups Demo.unknown_translation =
         lookups (calls (snd (run (level_2_pass_manager
                                     Demo.unknown_translation)
                                Demo.builtin))) ++ rest.
Proof.
  apply (failure_stops_the_run Demo.unknown_translation Demo.builtin
           (ResolutionError "translation" "nope")
           (snd (run (level_2_pass_manager Demo.unknown_translation)
                   Demo.builtin))).
  reflexivity.
Defined.

(** The first lookup that raises for an unregistered translation method. *)
Lemma assembly_raises_first_failure_unknown_translation :
  first_raise Demo.unknown_translation Demo.builtin
    (expected_lookups Demo.unknown_translation) =
    Some (ResolutionError "translation" "nope")
  /\ match first_raise Demo.unknown_translation Demo.builtin
             (expected_lookups Demo.unknown_translation) with
     | Some e =>
         fst (run (level_2_pass_manager Demo.unknown_translation)
                Demo.builtin) = Raise e
     | None =>
         exists p,
           fst (run (level_2_pass_manager Demo.unknown_translation)
                  Demo.builtin) = Ok p
     end.
Proof.
  split; [reflexivity|].
  apply (assembly_raises_first_failure demo_registry_read_only
           Demo.unknown_translation Demo.builtin).
Defined.

(** A layout of three qubits alone gives layout and routing. *)
Lemma layout_and_routing_iff_mapping_three_qubits :
  needs_mapping Demo.three_qubits_laid_out = true
  /\ (needs_mapping Demo.three_qubits_laid_out = true ->
      exists l r,
        layout Demo.staged_layout = Some l
        /\ routing Demo.staged_layout = Some r)
  /\ (needs_mapping Demo.three_qubits_laid_out = false ->
      layout Demo.staged_layout = None /\ routing Demo.staged_layout = None).
Proof.
  split; [reflexivity|].
  apply (layout_and_routing_iff_mapping Demo.three_qubits_laid_out Demo.start
           (snd (level_2_pass_manager Demo.three_qubits_laid_out Demo.start))
           Demo.staged_layout).
  reflexivity.
Defined.

(** The layout of no qubit gives what scenario A gives. *)
Lemma false_layout_is_no_layout_empty_layout :
  layout Demo.staged_A = None /\ routing Demo.staged_A = None
  /\ init Demo.staged_A = Some (validation_stage Demo.empty_layout).
Proof.
  apply (false_layout_is_no_layout Demo.empty_layout [] Demo.start
           (snd (level_2_pass_manager Demo.empty_layout Demo.start))
           Demo.staged_A); reflexivity.
Defined.

(** The init stage of scenario B. *)
Lemma init_without_init_method_scenario_B :
  init Demo.staged_B =
    Some (validation_stage Demo.scenario_B
          ++ (if needs_mapping Demo.scenario_B
              then unroll_3q_stage Demo.scenario_B else [])).
Proof.
  apply (init_without_init_method Demo.scenario_B Demo.start
           (snd (level_2_pass_manager Demo.scenario_B Demo.start))
           Demo.staged_B); reflexivity.
Defined.

(** The stages of scenario B are what the plugins return. *)
Lemma stages_are_plugin_results_scenario_B :
  translation Demo.staged_B =
    resolved Demo.scenario_B Demo.builtin "translation"
      (or_default (translation_method Demo.scenario_B) "translator")
  /\ optimization Demo.staged_B =
       resolved Demo.scenario_B Demo.builtin "optimization"
         (or_default (optimization_method Demo.scenario_B) "default")
  /\ scheduling Demo.staged_B =
       resolved Demo.scenario_B Demo.builtin "scheduling"
         (or_default (scheduling_method Demo.scenario_B) "default")
  /\ (needs_mapping Demo.scenario_B = true ->
      layout Demo.staged_B =
        resolved Demo.scenario_B Demo.builtin "layout"
          (or_default (layout_method Demo.scenario_B) "default")
      /\ routing Demo.staged_B =
           resolved Demo.scenario_B Demo.builtin "routing"
             (or_default (routing_method Demo.scenario_B) "sabre")).
Proof.
  apply (stages_are_plugin_results demo_registry_read_only Demo.scenario_B
           Demo.builtin Demo.staged_B
           (snd (run (level_2_pass_manager Demo.scenario_B) Demo.builtin))).
  reflexivity.
Defined.

(** The empty routing method is looked up under a name that is not empty. *)
Lemma defaulted_lookup_never_empty_empty_routing :
  routing_method Demo.empty_routing = Some ""
  /\ plugin_name Demo.routing_sabre <> "".
Proof.
  split; [reflexivity|].
  apply (defaulted_lookup_never_empty Demo.empty_routing Demo.builtin
           Demo.routing_sabre).
  - simpl. left. reflexivity.
  - discriminate.
Defined.

(** With no mapping and an unregistered routing method, the one lookup made
    is the routing lookup, and it fails the run. *)
Lemma unused_routing_is_still_resolved_unknown_routing :
  (forall call,
     In call (calls (snd (run (level_2_pass_manager Demo.unknown_routing)
                            Demo.builtin))) ->
     stage_name call <> "layout")
  /\ exists (first : Call) (rest : list Call),
       calls (snd (run (level_2_pass_manager Demo.unknown_routing)
                     Demo.builtin)) = first :: rest
       /\ stage_name first = "routing"
       /\ plugin_name first =
            or_default (routing_method Demo.unknown_routing) "sabre"
       /\ (forall e, outcome first = Raise e ->
             fst (run (level_2_pass_manager Demo.unknown_routing)
                    Demo.builtin) = Raise e
             /\ rest = []).
Proof.
  apply (unused_routing_is_still_resolved Demo.unknown_routing Demo.builtin
           (fst (run (level_2_pass_manager Demo.unknown_routing)
                   Demo.builtin))
           (snd (run (level_2_pass_manager Demo.unknown_routing)
                   Demo.builtin))); reflexivity.
Defined.

End Scenarios.
